(** * geniusSearch: normalisation of a Genius multi-search payload

    A shallow embedding of [src/search/genius.ts] and the properties of
    its classification / normalisation pipeline.

    Conventions of the embedding.
    - A TypeScript interface is a record in a module of the same name, so
      that [Hit.type], [Section.hits], [Song.url] read as in the source.
    - A JavaScript [number] that the code uses as a count or a cap is an
      integer of [Z]; a [string] is a [string]; an array is a [list].
    - The payload is deserialised JSON that is never validated.  The one
      property whose absence at run time matters to the properties below,
      [primary_artists], is an [option]: [None] is JavaScript's
      [undefined].  Every other property is taken at its declared type.
    - An expression that can throw is a computation of [Completion]; the
      [try ... catch] of the function is a match on it.  The console is an
      explicit list of the values handed to [console.error].  *)

From Stdlib Require Import List String ZArith Bool Lia.
Import ListNotations.
Local Open Scope string_scope.
Local Open Scope list_scope.
Local Open Scope Z_scope.

(** ** The interfaces of the source *)

Module Meta.
Record t : Type := mk { status : Z }.
End Meta.

Module Artist.
Record t : Type := mk {
  id : Z;
  name : string;
  slug : string;
  is_verified : bool;
  is_meme_verified : bool;
  iq : Z;
  image_url : string;
  header_image_url : string;
  url : string
}.
End Artist.

(** [interface PrimaryArtist extends Artist]: the fields of [Artist] and two
    more. *)
Module PrimaryArtist.
Record t : Type := mk {
  id : Z;
  name : string;
  slug : string;
  is_verified : bool;
  is_meme_verified : bool;
  iq : Z;
  image_url : string;
  header_image_url : string;
  url : string;
  api_path : string;
  index_character : string
}.
End PrimaryArtist.

Module ReleaseDateComponents.
Record t : Type := mk { year : Z; month : Z; day : Z }.
End ReleaseDateComponents.

Module SongStats.
Record t : Type := mk {
  unreviewed_annotations : Z;
  hot : bool;
  pageviews : Z
}.
End SongStats.

Module Song.
Record t : Type := mk {
  _type : string;
  annotation_count : Z;
  api_path : string;
  artist_names : string;
  full_title : string;
  header_image_thumbnail_url : string;
  header_image_url : string;
  id : Z;
  instrumental : bool;
  lyrics_owner_id : Z;
  lyrics_state : string;
  lyrics_updated_at : Z;
  path : string;
  primary_artist_names : string;
  pyongs_count : Z;
  relationships_index_url : string;
  release_date_components : ReleaseDateComponents.t;
  release_date_for_display : string;
  release_date_with_abbreviated_month_for_display : string;
  song_art_image_thumbnail_url : string;
  song_art_image_url : string;
  stats : SongStats.t;
  title : string;
  title_with_featured : string;
  updated_by_human_at : Z;
  url : string;
  featured_artists : list Artist.t;
  primary_artist : PrimaryArtist.t;
  (* declared [PrimaryArtist[]]; [None] when the property is missing *)
  primary_artists : option (list PrimaryArtist.t)
}.
End Song.

Module HighlightRange.
Record t : Type := mk { start : Z; end_ : Z }.
End HighlightRange.

Module Highlight.
Record t : Type := mk {
  property : string;
  value : string;
  snippet : bool;
  ranges : list HighlightRange.t
}.
End Highlight.

Module Hit.
Record t : Type := mk {
  highlights : list Highlight.t;
  index : string;
  type : string;
  result : Song.t
}.
End Hit.

Module Section.
Record t : Type := mk {
  type : string;
  hits : list Hit.t
}.
End Section.

Module ApiResponse.
Record response_t : Type := mk_response { sections : list Section.t }.
Record t : Type := mk {
  meta : Meta.t;
  response : response_t
}.
End ApiResponse.

Module ArtistInfo.
Record t : Type := mk {
  name : string;
  is_verified : bool;
  header_image_url : string;
  image_url : string
}.
End ArtistInfo.

Module SongResponse.
Record t : Type := mk {
  title : string;
  full_title : string;
  url_song : string;
  url_lyric : string;
  header_image_url : string;
  header_image_thumbnail_url : string;
  date : string;
  artist : list ArtistInfo.t
}.
End SongResponse.

Module OptionsParameters.
Record t : Type := mk { limit : Z }.
End OptionsParameters.

(** ** The run-time pieces the function relies on *)

(** A thrown value: an [Error] object with its [name] and [message]. *)
Module JsError.
Record t : Type := mk { name : string; message : string }.
End JsError.

(** The outcome of evaluating statements that may throw. *)
Inductive Completion (A : Type) : Type :=
| Normal (v : A)
| Throw (e : JsError.t).
Arguments Normal {A} v.
Arguments Throw {A} e.

Definition bind {A B : Type} (c : Completion A) (k : A -> Completion B)
  : Completion B :=
  match c with
  | Normal v => k v
  | Throw e => Throw e
  end.

Notation "x <- c ;; k" := (bind c (fun x => k))
  (at level 61, c at next level, right associativity).

(** How an async function settles its promise. *)
Inductive Promise (A : Type) : Type :=
| Fulfilled (v : A)
| Rejected (e : JsError.t).
Arguments Fulfilled {A} v.
Arguments Rejected {A} e.

(** [xs.push(x)]: the array grows at its end. *)
Definition push {A : Type} (xs : list A) (x : A) : list A := xs ++ [x].

(** [xs[0]]: [None] is [undefined]. *)
Definition at0 {A : Type} (xs : list A) : option A := nth_error xs 0.

(** [xs.slice(start, end)] for integer arguments: a negative index counts
    from the end of the array, and both are clamped to the array. *)
Definition slice {A : Type} (xs : list A) (start end_ : Z) : list A :=
  let len := Z.of_nat (List.length xs) in
  let k := if start <? 0 then Z.max (len + start) 0 else Z.min start len in
  let final := if end_ <? 0 then Z.max (len + end_) 0 else Z.min end_ len in
  firstn (Z.to_nat (final - k)) (skipn (Z.to_nat k) xs).

(** Truthiness of an integer [number]: only [0] is falsy. *)
Definition truthy (n : Z) : bool := negb (n =? 0).

(** What [for (const x of e)] does with [e] before the first iteration: a
    value that is [undefined] has no iterator, and a [TypeError] is
    thrown. *)
Definition not_iterable (what : string) : JsError.t :=
  JsError.mk "TypeError" (String.append what " is not iterable").

Definition iterator {A : Type} (what : string) (e : option (list A))
  : Completion (list A) :=
  match e with
  | Some xs => Normal xs
  | None => Throw (not_iterable what)
  end.

(** [for (const x of xs) body], the body acting on the variables [S] it
    assigns; a throw in the body leaves the loop. *)
Fixpoint for_of {A S : Type} (xs : list A) (body : A -> S -> Completion S)
  (s : S) : Completion S :=
  match xs with
  | [] => Normal s
  | x :: rest => s' <- body x s ;; for_of rest body s'
  end.

(** ** geniusSearch *)

Module AxiosResponse.
Record t : Type := mk { data : ApiResponse.t; status : Z }.
End AxiosResponse.

(** What one call leaves behind: the settled promise and the lines written
    with [console.error] (the label and the error logged with it). *)
Record Run : Type := mkRun {
  promise : Promise (option (list SongResponse.t));
  console : list (string * JsError.t)
}.

Section GeniusSearch.

(** The collaborators: the HTTP client and the URI encoder.  Either may
    throw ([axios] on a transport failure or a non-2xx status,
    [encodeURIComponent] on a lone surrogate). *)
Variable axios_get : string -> Completion AxiosResponse.t.
Variable encodeURIComponent : string -> Completion string.

(** [const { data } = await axios.get<ApiResponse>(`...?q=${...}`)] *)
Definition fetch (search : string) : Completion ApiResponse.t :=
  q <- encodeURIComponent search ;;
  r <- axios_get (String.append "https://genius.com/api/search/multi?q=" q) ;;
  Normal (AxiosResponse.data r).

(** [sections.filter(section => section.type === tag)[0]?.hits || []] *)
Definition section_hits (tag : string) (sections : list Section.t)
  : list Hit.t :=
  match at0 (filter (fun section => String.eqb (Section.type section) tag)
                    sections) with
  | Some section => Section.hits section
  | None => []
  end.

(** [topHit.concat(song, lyric)] *)
Definition candidates (data : ApiResponse.t) : list Hit.t :=
  let sections := ApiResponse.sections (ApiResponse.response data) in
  let topHit := section_hits "top_hit" sections in
  let song := section_hits "song" sections in
  let lyric := section_hits "lyric" sections in
  topHit ++ (song ++ lyric).

(** [....filter(hit => hit.type === 'song')] *)
Definition songs_of (data : ApiResponse.t) : list Hit.t :=
  filter (fun hit => String.eqb (Hit.type hit) "song") (candidates data).

(** The body of the inner loop: one [artistInfo.push({...})]. *)
Definition push_artist (artist : PrimaryArtist.t)
  (artistInfo : list ArtistInfo.t) : Completion (list ArtistInfo.t) :=
  Normal (push artistInfo
    {| ArtistInfo.name := PrimaryArtist.name artist;
       ArtistInfo.is_verified := PrimaryArtist.is_verified artist;
       ArtistInfo.header_image_url := PrimaryArtist.header_image_url artist;
       ArtistInfo.image_url := PrimaryArtist.image_url artist |}).

(** The body of the outer loop: the inner loop over the primary artists,
    then one [songsResponse.push({...})]. *)
Definition push_song (song : Hit.t) (songsResponse : list SongResponse.t)
  : Completion (list SongResponse.t) :=
  let result := Hit.result song in
  artists <- iterator "song.result.primary_artists"
               (Song.primary_artists result) ;;
  artistInfo <- for_of artists push_artist [] ;;
  Normal (push songsResponse
    {| SongResponse.title := Song.title result;
       SongResponse.full_title := Song.full_title result;
       SongResponse.url_song := Song.relationships_index_url result;
       SongResponse.url_lyric := Song.url result;
       SongResponse.header_image_url := Song.header_image_url result;
       SongResponse.header_image_thumbnail_url :=
         Song.header_image_thumbnail_url result;
       SongResponse.date := Song.release_date_for_display result;
       SongResponse.artist := artistInfo |}).

(** The last statement of the [try] block.  [None] is the value of a call
    that reaches the end of the function without a [return]. *)
Definition apply_limit (options : option OptionsParameters.t)
  (songsResponse : list SongResponse.t) : option (list SongResponse.t) :=
  match options with
  | Some o =>
      let limit := OptionsParameters.limit o in
      if truthy limit then
        if limit >=? Z.of_nat (List.length songsResponse)
        then Some songsResponse
        else Some (slice songsResponse 0 limit)
      else None
  | None => None
  end.

(** The [try] block. *)
Definition geniusSearch_try (search : string)
  (options : option OptionsParameters.t)
  : Completion (option (list SongResponse.t)) :=
  data <- fetch search ;;
  songsResponse <- for_of (songs_of data) push_song [] ;;
  Normal (apply_limit options songsResponse).

(** The function: the [catch] clause logs and returns [undefined]. *)
Definition geniusSearch (search : string)
  (options : option OptionsParameters.t) : Run :=
  match geniusSearch_try search options with
  | Normal v => {| promise := Fulfilled v; console := [] |}
  | Throw error =>
      {| promise := Fulfilled None; console := [("Error: ", error)] |}
  end.

End GeniusSearch.

(** ** The same pipeline in the words of its description *)

(** The first section that bears a tag, if there is one. *)
Definition first_section (tag : string) (sections : list Section.t)
  : option Section.t :=
  find (fun s => String.eqb (Section.type s) tag) sections.

(** What a tag contributes: the hits of its first section, or nothing. *)
Definition contribution (tag : string) (sections : list Section.t)
  : list Hit.t :=
  match first_section tag sections with
  | Some s => Section.hits s
  | None => []
  end.

(** The entries considered: the three contributions in priority order. *)
Definition considered (sections : list Section.t) : list Hit.t :=
  contribution "top_hit" sections
  ++ contribution "song" sections
  ++ contribution "lyric" sections.

(** The entity filter: the hits whose kind is "song". *)
Definition retained (hs : list Hit.t) : list Hit.t :=
  filter (fun h => String.eqb (Hit.type h) "song") hs.

(** The truncation law: everything when the cap [L] reaches the length,
    the first [L] elements otherwise. *)
Definition capped {A : Type} (L : Z) (R : list A) : list A :=
  if Z.of_nat (List.length R) <=? L then R else firstn (Z.to_nat L) R.

(** The summary of one artist. *)
Definition artist_summary (a : PrimaryArtist.t) : ArtistInfo.t :=
  {| ArtistInfo.name := PrimaryArtist.name a;
     ArtistInfo.is_verified := PrimaryArtist.is_verified a;
     ArtistInfo.header_image_url := PrimaryArtist.header_image_url a;
     ArtistInfo.image_url := PrimaryArtist.image_url a |}.

(** The record one retained hit is projected to; there is none when the
    hit has no [primary_artists]. *)
Definition projection (h : Hit.t) : option SongResponse.t :=
  match Song.primary_artists (Hit.result h) with
  | Some artists =>
      let r := Hit.result h in
      Some {| SongResponse.title := Song.title r;
              SongResponse.full_title := Song.full_title r;
              SongResponse.url_song := Song.relationships_index_url r;
              SongResponse.url_lyric := Song.url r;
              SongResponse.header_image_url := Song.header_image_url r;
              SongResponse.header_image_thumbnail_url :=
                Song.header_image_thumbnail_url r;
              SongResponse.date := Song.release_date_for_display r;
              SongResponse.artist := map artist_summary artists |}
  | None => None
  end.

(** All the projections of a sequence of hits, or none at all. *)
Fixpoint projections (hs : list Hit.t) : option (list SongResponse.t) :=
  match hs with
  | [] => Some []
  | h :: rest =>
      match projection h, projections rest with
      | Some r, Some rs => Some (r :: rs)
      | _, _ => None
      end
  end.

(** A payload with other sections in place of the given ones. *)
Definition with_sections (data : ApiResponse.t) (sections : list Section.t)
  : ApiResponse.t :=
  ApiResponse.mk (ApiResponse.meta data) (ApiResponse.mk_response sections).

(** ** Sample payloads *)

Module Samples.

Definition artist (name : string) (verified : bool) : PrimaryArtist.t :=
  {| PrimaryArtist.id := 563;
     PrimaryArtist.name := name;
     PrimaryArtist.slug := "slug";
     PrimaryArtist.is_verified := verified;
     PrimaryArtist.is_meme_verified := false;
     PrimaryArtist.iq := 100;
     PrimaryArtist.image_url :=
       String.append "https://images.genius.com/avatar/" name;
     PrimaryArtist.header_image_url :=
       String.append "https://images.genius.com/header/" name;
     PrimaryArtist.url := String.append "https://genius.com/artists/" name;
     PrimaryArtist.api_path := "/artists/563";
     PrimaryArtist.index_character := "q" |}.

Definition song (title : string)
  (artists : option (list PrimaryArtist.t)) : Song.t :=
  {| Song._type := "song";
     Song.annotation_count := 34;
     Song.api_path := "/songs/1063";
     Song.artist_names := "artist names";
     Song.full_title := String.append title " (full title)";
     Song.header_image_thumbnail_url :=
       String.append "https://images.genius.com/thumb/" title;
     Song.header_image_url :=
       String.append "https://images.genius.com/cover/" title;
     Song.id := 1063;
     Song.instrumental := false;
     Song.lyrics_owner_id := 4;
     Song.lyrics_state := "complete";
     Song.lyrics_updated_at := 1700000000;
     Song.path := String.append "/path/" title;
     Song.primary_artist_names := "primary artist names";
     Song.pyongs_count := 7;
     Song.relationships_index_url :=
       String.append "https://genius.com/sample/" title;
     Song.release_date_components := ReleaseDateComponents.mk 1975 10 31;
     Song.release_date_for_display := "October 31, 1975";
     Song.release_date_with_abbreviated_month_for_display := "Oct. 31, 1975";
     Song.song_art_image_thumbnail_url :=
       String.append "https://images.genius.com/art-thumb/" title;
     Song.song_art_image_url :=
       String.append "https://images.genius.com/art/" title;
     Song.stats := SongStats.mk 0 false 9000000;
     Song.title := title;
     Song.title_with_featured := title;
     Song.updated_by_human_at := 1700000001;
     Song.url := String.append "https://genius.com/lyrics/" title;
     Song.featured_artists := [];
     Song.primary_artist := artist "Queen" true;
     Song.primary_artists := artists |}.

Definition hit (type title : string)
  (artists : option (list PrimaryArtist.t)) : Hit.t :=
  {| Hit.highlights := [];
     Hit.index := type;
     Hit.type := type;
     Hit.result := song title artists |}.

Definition queen : PrimaryArtist.t := artist "Queen" true.
Definition bowie : PrimaryArtist.t := artist "David Bowie" false.

Definition bohemian : Hit.t :=
  hit "song" "Bohemian Rhapsody" (Some [queen]).
Definition pressure : Hit.t :=
  hit "song" "Under Pressure" (Some [queen; bowie]).
Definition champions : Hit.t :=
  hit "song" "We Are the Champions" (Some []).
Definition queen_page : Hit.t := hit "artist" "Queen" (Some []).
Definition opera_album : Hit.t := hit "album" "A Night at the Opera" None.
Definition somebody : Hit.t :=
  hit "song" "Somebody to Love" (Some [queen]).
(** A song hit whose [primary_artists] is missing. *)
Definition drifted : Hit.t := hit "song" "Radio Ga Ga" None.

(** What [bohemian] is to be projected to, written out. *)
Definition bohemian_result : SongResponse.t :=
  {| SongResponse.title := "Bohemian Rhapsody";
     SongResponse.full_title := "Bohemian Rhapsody (full title)";
     SongResponse.url_song := "https://genius.com/sample/Bohemian Rhapsody";
     SongResponse.url_lyric := "https://genius.com/lyrics/Bohemian Rhapsody";
     SongResponse.header_image_url :=
       "https://images.genius.com/cover/Bohemian Rhapsody";
     SongResponse.header_image_thumbnail_url :=
       "https://images.genius.com/thumb/Bohemian Rhapsody";
     SongResponse.date := "October 31, 1975";
     SongResponse.artist :=
       [ {| ArtistInfo.name := "Queen";
            ArtistInfo.is_verified := true;
            ArtistInfo.header_image_url :=
              "https://images.genius.com/header/Queen";
            ArtistInfo.image_url :=
              "https://images.genius.com/avatar/Queen" |} ] |}.

(** [drifted] with an empty artist sequence in place of the missing one. *)
Definition drifted_defaulted : SongResponse.t :=
  {| SongResponse.title := "Radio Ga Ga";
     SongResponse.full_title := "Radio Ga Ga (full title)";
     SongResponse.url_song := "https://genius.com/sample/Radio Ga Ga";
     SongResponse.url_lyric := "https://genius.com/lyrics/Radio Ga Ga";
     SongResponse.header_image_url :=
       "https://images.genius.com/cover/Radio Ga Ga";
     SongResponse.header_image_thumbnail_url :=
       "https://images.genius.com/thumb/Radio Ga Ga";
     SongResponse.date := "October 31, 1975";
     SongResponse.artist := [] |}.

Definition payload (sections : list Section.t) : ApiResponse.t :=
  ApiResponse.mk (Meta.mk 200) (ApiResponse.mk_response sections).

(** Sections out of priority order, hits of other kinds among the songs,
    an irrelevant section, and a second "song" section. *)
Definition mixed : ApiResponse.t :=
  payload
    [ Section.mk "song" [pressure; opera_album];
      Section.mk "artist" [queen_page];
      Section.mk "top_hit" [queen_page; bohemian];
      Section.mk "song" [somebody];
      Section.mk "lyric" [champions] ].

(** Only a top hit. *)
Definition single : ApiResponse.t :=
  payload [ Section.mk "top_hit" [bohemian] ].

(** None of the three sections. *)
Definition bare : ApiResponse.t :=
  payload [ Section.mk "artist" [queen_page] ].

(** A retained hit without [primary_artists], after a sound one. *)
Definition shape_drift : ApiResponse.t :=
  payload [ Section.mk "top_hit" [bohemian];
            Section.mk "song" [drifted] ].

(** The top hit listed again in the "song" section. *)
Definition doubled : ApiResponse.t :=
  payload [ Section.mk "top_hit" [bohemian];
            Section.mk "song" [pressure; bohemian] ].

Definition ok (data : ApiResponse.t) (url : string)
  : Completion AxiosResponse.t :=
  Normal (AxiosResponse.mk data 200).

Definition refused (url : string) : Completion AxiosResponse.t :=
  Throw (JsError.mk "AxiosError" "connect ECONNREFUSED 127.0.0.1:443").

Definition encode (s : string) : Completion string := Normal s.

End Samples.

(** ** Arrays *)

Lemma at0_filter {A : Type} (p : A -> bool) (xs : list A) :
  at0 (filter p xs) = find p xs.
Proof.
  induction xs as [|x xs IH]; simpl; [reflexivity|].
  destruct (p x); [reflexivity | exact IH].
Qed.

Lemma find_none_iff {A : Type} (p : A -> bool) (xs : list A) :
  find p xs = None <-> forall x, In x xs -> p x = false.
Proof.
  split.
  - intros H x Hx. exact (find_none p xs H x Hx).
  - induction xs as [|x xs IH]; simpl; intros H; [reflexivity|].
    rewrite (H x (or_introl eq_refl)). apply IH.
    intros y Hy. apply H. right. exact Hy.
Qed.

(** A later element that satisfies [p] can go once an earlier one does. *)
Lemma find_drop_later {A : Type} (p : A -> bool) (pre mid post : list A)
  (x d : A) :
  p x = true ->
  find p (pre ++ x :: mid ++ d :: post) = find p (pre ++ x :: mid ++ post).
Proof.
  intros Hx. induction pre as [|y pre IH]; simpl.
  - rewrite Hx. reflexivity.
  - destruct (p y); [reflexivity | exact IH].
Qed.

(** An element that does not satisfy [p] can go from anywhere. *)
Lemma find_drop_other {A : Type} (p : A -> bool) (pre post : list A) (d : A) :
  p d = false -> find p (pre ++ d :: post) = find p (pre ++ post).
Proof.
  intros Hd. induction pre as [|y pre IH]; simpl.
  - rewrite Hd. reflexivity.
  - destruct (p y); [reflexivity | exact IH].
Qed.

Lemma In_firstn {A : Type} (n : nat) (xs : list A) (x : A) :
  In x (firstn n xs) -> In x xs.
Proof.
  revert xs. induction n as [|n IH]; intros [|y xs]; simpl;
    try contradiction.
  intros [->|H]; [left; reflexivity | right; exact (IH xs H)].
Qed.

Lemma firstn_length_firstn {A : Type} (n : nat) (xs : list A) :
  firstn (List.length (firstn n xs)) xs = firstn n xs.
Proof.
  rewrite length_firstn.
  destruct (Nat.le_gt_cases n (List.length xs)) as [H|H].
  - rewrite Nat.min_l by exact H. reflexivity.
  - rewrite Nat.min_r by lia.
    rewrite firstn_all, firstn_all2 by lia. reflexivity.
Qed.

(** [slice(0, n)] with [n] not negative keeps the first [n] elements. *)
Lemma slice_0_nonneg {A : Type} (xs : list A) (n : Z) :
  0 <= n -> slice xs 0 n = firstn (Z.to_nat n) xs.
Proof.
  intros Hn. unfold slice.
  assert (H0 : (0 <? 0) = false) by reflexivity. rewrite H0.
  assert (Hlt : (n <? 0) = false) by (apply Z.ltb_ge; exact Hn).
  rewrite Hlt.
  rewrite (Z.min_l 0) by lia. simpl skipn. rewrite Z.sub_0_r.
  destruct (Z.le_gt_cases n (Z.of_nat (List.length xs))) as [H|H].
  - rewrite Z.min_l by exact H. reflexivity.
  - rewrite Z.min_r by lia. rewrite Nat2Z.id.
    rewrite firstn_all, firstn_all2 by lia. reflexivity.
Qed.

(** [slice(0, n)] is a prefix whatever the sign of [n]. *)
Lemma slice_0_prefix {A : Type} (xs : list A) (n : Z) :
  exists k, slice xs 0 n = firstn k xs.
Proof.
  unfold slice.
  assert (H0 : (0 <? 0) = false) by reflexivity. rewrite H0.
  rewrite (Z.min_l 0) by lia. simpl skipn. eexists. reflexivity.
Qed.

(** ** The loops *)

Lemma for_of_push_artist (artists : list PrimaryArtist.t)
  (artistInfo : list ArtistInfo.t) :
  for_of artists push_artist artistInfo
  = Normal (artistInfo ++ map artist_summary artists).
Proof.
  revert artistInfo.
  induction artists as [|a artists IH]; intros artistInfo; simpl.
  - rewrite app_nil_r. reflexivity.
  - rewrite IH. unfold push. rewrite <- app_assoc. reflexivity.
Qed.

Lemma push_song_projection (song : Hit.t)
  (songsResponse : list SongResponse.t) :
  push_song song songsResponse
  = match projection song with
    | Some r => Normal (songsResponse ++ [r])
    | None => Throw (not_iterable "song.result.primary_artists")
    end.
Proof.
  unfold push_song, projection.
  destruct (Song.primary_artists (Hit.result song)) as [artists|]; simpl.
  - rewrite for_of_push_artist. reflexivity.
  - reflexivity.
Qed.

Lemma for_of_push_song (songs : list Hit.t)
  (songsResponse : list SongResponse.t) :
  for_of songs push_song songsResponse
  = match projections songs with
    | Some rs => Normal (songsResponse ++ rs)
    | None => Throw (not_iterable "song.result.primary_artists")
    end.
Proof.
  revert songsResponse.
  induction songs as [|h songs IH]; intros songsResponse; simpl.
  - rewrite app_nil_r. reflexivity.
  - rewrite push_song_projection.
    destruct (projection h) as [r|]; simpl; [|reflexivity].
    rewrite IH. destruct (projections songs) as [rs|]; [|reflexivity].
    rewrite <- app_assoc. reflexivity.
Qed.

Lemma projections_map (hs : list Hit.t) (rs : list SongResponse.t) :
  projections hs = Some rs <-> map projection hs = map Some rs.
Proof.
  revert rs. induction hs as [|h hs IH]; intros rs; simpl.
  - split; intros H.
    + injection H as <-. reflexivity.
    + destruct rs; [reflexivity | discriminate].
  - split; intros H.
    + destruct (projection h) as [r|]; [|discriminate].
      destruct (projections hs) as [rs'|] eqn:E; [|discriminate].
      injection H as <-. simpl. f_equal. apply IH. reflexivity.
    + destruct rs as [|r rs]; [discriminate|].
      simpl in H. injection H as Hr Hrs.
      rewrite Hr. apply IH in Hrs. rewrite Hrs. reflexivity.
Qed.

Lemma projections_none (hs : list Hit.t) :
  (exists h, In h hs /\ Song.primary_artists (Hit.result h) = None) ->
  projections hs = None.
Proof.
  intros [h [Hin Hnone]].
  induction hs as [|h' hs IH]; simpl; [contradiction|].
  destruct Hin as [->|Hin].
  - unfold projection. rewrite Hnone. reflexivity.
  - rewrite (IH Hin). destruct (projection h'); reflexivity.
Qed.

Lemma projections_some (hs : list Hit.t) :
  (forall h, In h hs -> Song.primary_artists (Hit.result h) <> None) ->
  exists rs, projections hs = Some rs.
Proof.
  induction hs as [|h hs IH]; simpl; intros Hall.
  - exists []. reflexivity.
  - destruct IH as [rs ->]; [intros h' Hh'; apply Hall; right; exact Hh'|].
    unfold projection.
    destruct (Song.primary_artists (Hit.result h)) as [artists|] eqn:Ha.
    + eexists. reflexivity.
    + exfalso. exact (Hall h (or_introl eq_refl) Ha).
Qed.

Lemma section_hits_contribution (tag : string) (sections : list Section.t) :
  section_hits tag sections = contribution tag sections.
Proof.
  unfold section_hits, contribution, first_section.
  rewrite at0_filter. reflexivity.
Qed.

Lemma apply_limit_prefix (options : option OptionsParameters.t)
  (rs out : list SongResponse.t) :
  apply_limit options rs = Some out -> out = firstn (List.length out) rs.
Proof.
  unfold apply_limit. destruct options as [o|]; [|discriminate].
  destruct (truthy (OptionsParameters.limit o)); [|discriminate].
  destruct (OptionsParameters.limit o >=? Z.of_nat (List.length rs)).
  - intros H. injection H as <-. rewrite firstn_all. reflexivity.
  - intros H. injection H as <-.
    destruct (slice_0_prefix rs (OptionsParameters.limit o)) as [k ->].
    rewrite firstn_length_firstn. reflexivity.
Qed.

Lemma contribution_drop_duplicate (tag : string)
  (pre mid post : list Section.t) (s dup : Section.t) :
  Section.type dup = Section.type s ->
  contribution tag (pre ++ s :: mid ++ dup :: post)
  = contribution tag (pre ++ s :: mid ++ post).
Proof.
  intros Hdup. unfold contribution, first_section.
  destruct (String.eqb (Section.type dup) tag) eqn:E.
  - rewrite find_drop_later; [reflexivity|].
    rewrite <- Hdup. exact E.
  - change (pre ++ s :: mid ++ dup :: post)
      with (pre ++ (s :: mid) ++ dup :: post).
    change (pre ++ s :: mid ++ post) with (pre ++ (s :: mid) ++ post).
    rewrite !app_assoc.
    rewrite find_drop_other; [reflexivity | exact E].
Qed.

Lemma candidates_considered (data : ApiResponse.t) :
  candidates data
  = considered (ApiResponse.sections (ApiResponse.response data)).
Proof.
  unfold candidates, considered.
  rewrite !section_hits_contribution. reflexivity.
Qed.

Lemma for_of_normal_projections (songs : list Hit.t)
  (rs : list SongResponse.t) :
  for_of songs push_song [] = Normal rs -> projections songs = Some rs.
Proof.
  rewrite for_of_push_song.
  destruct (projections songs) as [rs'|]; [|discriminate].
  simpl. intros H. injection H as <-. reflexivity.
Qed.

Lemma projections_length (hs : list Hit.t) (rs : list SongResponse.t) :
  projections hs = Some rs -> List.length rs = List.length hs.
Proof.
  intros H. apply projections_map in H.
  apply (f_equal (@List.length _)) in H.
  rewrite !length_map in H. symmetry. exact H.
Qed.

Lemma projections_nth (hs : list Hit.t) (rs : list SongResponse.t)
  (i : nat) (h : Hit.t) :
  projections hs = Some rs ->
  nth_error hs i = Some h ->
  exists r, nth_error rs i = Some r /\ projection h = Some r.
Proof.
  intros H Hi. apply projections_map in H.
  assert (E : nth_error (map projection hs) i = Some (projection h))
    by (apply map_nth_error; exact Hi).
  rewrite H in E. rewrite nth_error_map in E.
  destruct (nth_error rs i) as [r|]; [|discriminate].
  simpl in E. injection E as E. exists r. split; [reflexivity|].
  symmetry. exact E.
Qed.

Lemma projections_firstn (hs : list Hit.t) (rs : list SongResponse.t)
  (n : nat) :
  projections hs = Some rs ->
  map projection (firstn n hs) = map Some (firstn n rs).
Proof.
  intros H. apply projections_map in H.
  rewrite <- !firstn_map. rewrite H. reflexivity.
Qed.

(** ** The projection of one retained entry *)

(** C5. The loop over the retained entries gives every entry, at its own
    position, a record whose artist sequence is what the inner loop makes
    of the entry's primary artists: as long as that sequence, in its
    order, each summary holding the name, the verification flag, the
    header image URL and the profile image URL of the artist at the same
    position, unchanged; an entry with no primary artist at all gets the
    empty sequence, and the loop goes on. *)
Theorem artist_projection (songs : list Hit.t) (rs : list SongResponse.t) :
  for_of songs push_song [] = Normal rs ->
  forall (i : nat) (h : Hit.t),
    nth_error songs i = Some h ->
    exists (r : SongResponse.t) (artists : list PrimaryArtist.t),
      nth_error rs i = Some r
      /\ Song.primary_artists (Hit.result h) = Some artists
      /\ for_of artists push_artist [] = Normal (SongResponse.artist r)
      /\ List.length (SongResponse.artist r) = List.length artists
      /\ (forall (j : nat) (a : PrimaryArtist.t),
            nth_error artists j = Some a ->
            exists s : ArtistInfo.t,
              nth_error (SongResponse.artist r) j = Some s
              /\ ArtistInfo.name s = PrimaryArtist.name a
              /\ ArtistInfo.is_verified s = PrimaryArtist.is_verified a
              /\ ArtistInfo.header_image_url s
                 = PrimaryArtist.header_image_url a
              /\ ArtistInfo.image_url s = PrimaryArtist.image_url a)
      /\ (artists = [] -> SongResponse.artist r = []).
Proof.
  intros Hrun i h Hi.
  apply for_of_normal_projections in Hrun.
  destruct (projections_nth _ _ _ _ Hrun Hi) as [r [Hr Hp]].
  unfold projection in Hp.
  destruct (Song.primary_artists (Hit.result h)) as [artists|] eqn:Ha;
    [|discriminate].
  injection Hp as <-. eexists. exists artists. simpl.
  split; [exact Hr|]. split; [reflexivity|].
  split; [apply for_of_push_artist|].
  split; [apply length_map|].
  split.
  - intros j a Hj. exists (artist_summary a).
    split; [apply map_nth_error; exact Hj|]. repeat split.
  - intros ->. reflexivity.
Qed.

(** C6. The loop builds one record per retained entry, at the entry's
    position: title, full title, header image URL, header image thumbnail
    URL and release date for display are those of the raw song; the song
    page URL is the song's relationships index URL and the lyric page URL
    is the song's own URL; the artist sequence is the one the inner loop
    built from the entry's primary artists. *)
Theorem result_assembly (songs : list Hit.t) (rs : list SongResponse.t) :
  for_of songs push_song [] = Normal rs ->
  List.length rs = List.length songs
  /\ forall (i : nat) (h : Hit.t),
       nth_error songs i = Some h ->
       exists r : SongResponse.t,
         nth_error rs i = Some r
         /\ SongResponse.title r = Song.title (Hit.result h)
         /\ SongResponse.full_title r = Song.full_title (Hit.result h)
         /\ SongResponse.url_song r
            = Song.relationships_index_url (Hit.result h)
         /\ SongResponse.url_lyric r = Song.url (Hit.result h)
         /\ SongResponse.header_image_url r
            = Song.header_image_url (Hit.result h)
         /\ SongResponse.header_image_thumbnail_url r
            = Song.header_image_thumbnail_url (Hit.result h)
         /\ SongResponse.date r
            = Song.release_date_for_display (Hit.result h)
         /\ exists artists : list PrimaryArtist.t,
              Song.primary_artists (Hit.result h) = Some artists
              /\ for_of artists push_artist []
                 = Normal (SongResponse.artist r).
Proof.
  intros Hrun. apply for_of_normal_projections in Hrun.
  split; [exact (projections_length _ _ Hrun)|].
  intros i h Hi.
  destruct (projections_nth _ _ _ _ Hrun Hi) as [r [Hr Hp]].
  unfold projection in Hp.
  destruct (Song.primary_artists (Hit.result h)) as [artists|] eqn:Ha;
    [|discriminate].
  injection Hp as <-. eexists. split; [exact Hr|]. simpl.
  repeat (split; [reflexivity|]).
  exists artists. split; [reflexivity|]. apply for_of_push_artist.
Qed.

(** ** The function as a whole *)

Section Properties.

Variable axios_get : string -> Completion AxiosResponse.t.
Variable encodeURIComponent : string -> Completion string.

Lemma geniusSearch_fetched (search : string)
  (options : option OptionsParameters.t) (data : ApiResponse.t) :
  fetch axios_get encodeURIComponent search = Normal data ->
  geniusSearch axios_get encodeURIComponent search options
  = match projections (songs_of data) with
    | Some rs =>
        {| promise := Fulfilled (apply_limit options rs); console := [] |}
    | None =>
        {| promise := Fulfilled None;
           console :=
             [("Error: ", not_iterable "song.result.primary_artists")] |}
    end.
Proof.
  unfold geniusSearch, geniusSearch_try. intros ->. simpl.
  rewrite for_of_push_song.
  destruct (projections (songs_of data)); reflexivity.
Qed.

Lemma geniusSearch_failed (search : string)
  (options : option OptionsParameters.t) (e : JsError.t) :
  fetch axios_get encodeURIComponent search = Throw e ->
  geniusSearch axios_get encodeURIComponent search options
  = {| promise := Fulfilled None; console := [("Error: ", e)] |}.
Proof.
  unfold geniusSearch, geniusSearch_try. intros ->.
  reflexivity.
Qed.

(** C1. Once the payload is fetched, the entries the function considers
    are the hits of the first "top_hit" section, then those of the first
    "song" section, then those of the first "lyric" section, each in its own
    order; a section that repeats the tag of an earlier one can be taken
    out of the payload without changing them; and whatever sequence the
    call returns is, position by position, the projection of the first
    entries of kind "song" among them. *)
Theorem section_priority_and_order (search : string)
  (options : option OptionsParameters.t) (data : ApiResponse.t) :
  fetch axios_get encodeURIComponent search = Normal data ->
  candidates data
  = considered (ApiResponse.sections (ApiResponse.response data))
  /\ (forall (pre mid post : list Section.t) (s dup : Section.t),
        ApiResponse.sections (ApiResponse.response data)
        = pre ++ s :: mid ++ dup :: post ->
        Section.type dup = Section.type s ->
        candidates data
        = candidates (with_sections data (pre ++ s :: mid ++ post)))
  /\ (forall out : list SongResponse.t,
        promise (geniusSearch axios_get encodeURIComponent search options)
        = Fulfilled (Some out) ->
        map projection
          (firstn (List.length out)
             (retained
                (considered
                   (ApiResponse.sections (ApiResponse.response data)))))
        = map Some out).
Proof.
  intros Hfetch. split; [apply candidates_considered|]. split.
  - intros pre mid post s dup Hsections Hdup.
    rewrite !candidates_considered. simpl. rewrite Hsections.
    unfold considered.
    rewrite !(contribution_drop_duplicate _ pre mid post s dup Hdup).
    reflexivity.
  - intros out Hout.
    rewrite (geniusSearch_fetched search options data Hfetch) in Hout.
    unfold songs_of in Hout. rewrite candidates_considered in Hout.
    fold (retained
            (considered (ApiResponse.sections (ApiResponse.response data))))
      in Hout.
    destruct (projections _) as [rs|] eqn:Hrs; simpl in Hout;
      [|discriminate].
    injection Hout as Hout. apply apply_limit_prefix in Hout.
    rewrite Hout at 2. apply projections_firstn. exact Hrs.
Qed.

(** C2. Every record of a returned sequence is the projection of a hit of
    kind "song" among the entries considered, the records standing in the
    order of those hits; when no considered entry is of kind "song", the
    returned sequence is empty. *)
Theorem entity_filter (search : string)
  (options : option OptionsParameters.t) (data : ApiResponse.t)
  (out : list SongResponse.t) :
  fetch axios_get encodeURIComponent search = Normal data ->
  promise (geniusSearch axios_get encodeURIComponent search options)
  = Fulfilled (Some out) ->
  (exists hs : list Hit.t,
      map projection hs = map Some out
      /\ Forall (fun h => In h (candidates data) /\ Hit.type h = "song") hs)
  /\ ((forall h, In h (candidates data) -> Hit.type h <> "song") ->
      out = []).
Proof.
  intros Hfetch Hout.
  rewrite (geniusSearch_fetched search options data Hfetch) in Hout.
  destruct (projections (songs_of data)) as [rs|] eqn:Hrs; simpl in Hout;
    [|discriminate].
  injection Hout as Hout. apply apply_limit_prefix in Hout.
  assert (Hsongs : Forall (fun h => In h (candidates data)
                                   /\ Hit.type h = "song") (songs_of data)).
  { apply Forall_forall. intros h Hh. unfold songs_of in Hh.
    apply filter_In in Hh. destruct Hh as [Hin Hty].
    split; [exact Hin|]. apply String.eqb_eq. exact Hty. }
  split.
  - exists (firstn (List.length out) (songs_of data)). split.
    + rewrite Hout at 2. apply projections_firstn. exact Hrs.
    + apply Forall_forall. intros h Hh.
      apply (proj1 (Forall_forall _ _) Hsongs).
      exact (In_firstn _ _ _ Hh).
  - intros Hnone.
    assert (Hempty : songs_of data = []).
    { destruct (songs_of data) as [|h hs]; [reflexivity|].
      inversion Hsongs as [|? ? [Hin Hty] _]; subst.
      exfalso. exact (Hnone h Hin Hty). }
    rewrite Hempty in Hrs. simpl in Hrs. injection Hrs as <-.
    rewrite Hout. apply firstn_nil.
Qed.

(** C3, amended. For a normalized result sequence [R] and a supplied limit
    [L] of at least one, the call returns [R] itself when [L] reaches the
    length of [R] and the first [L] elements of [R] in their order
    otherwise; the returned sequence is no longer than [L]. *)
Theorem truncation_law (search : string) (data : ApiResponse.t)
  (R : list SongResponse.t) (L : Z) :
  fetch axios_get encodeURIComponent search = Normal data ->
  for_of (songs_of data) push_song [] = Normal R ->
  0 < L ->
  promise (geniusSearch axios_get encodeURIComponent search
             (Some (OptionsParameters.mk L)))
  = Fulfilled (Some (capped L R))
  /\ Z.of_nat (List.length (capped L R)) <= L.
Proof.
  intros Hfetch Hloop HL. split.
  - rewrite (geniusSearch_fetched search _ data Hfetch).
    rewrite (for_of_normal_projections _ _ Hloop). simpl. f_equal.
    unfold apply_limit, capped, truthy. simpl.
    destruct (Z.eqb_spec L 0) as [->|_]; [lia|]. simpl.
    rewrite Z.geb_leb.
    destruct (Z.of_nat (List.length R) <=? L); [reflexivity|].
    rewrite slice_0_nonneg by lia. reflexivity.
  - unfold capped.
    destruct (Z.leb_spec (Z.of_nat (List.length R)) L) as [H|H]; [exact H|].
    rewrite length_firstn. lia.
Qed.

(** C4. Without options the promise is fulfilled with [undefined],
    whatever the payload holds and whatever the collaborators do. *)
Theorem limit_absent (search : string) :
  promise (geniusSearch axios_get encodeURIComponent search None)
  = Fulfilled None.
Proof.
  unfold geniusSearch, geniusSearch_try.
  destruct (fetch axios_get encodeURIComponent search) as [data|e]; simpl;
    [|reflexivity].
  destruct (for_of (songs_of data) push_song []); reflexivity.
Qed.

(** C7. Once the payload is fetched: a tag that no section bears
    contributes the empty sequence; without a "lyric" section the entries
    considered are those of the other two; with all three sections
    missing no entry is retained; whatever sections are missing, the call
    logs no error as long as every retained entry has its primary
    artists; and when no entry is retained the call ends with nothing on
    the console, fulfilled with the empty sequence under any limit that
    is not zero. *)
Theorem graceful_degradation (search : string) (data : ApiResponse.t) :
  fetch axios_get encodeURIComponent search = Normal data ->
  (forall tag : string,
      (forall s, In s (ApiResponse.sections (ApiResponse.response data)) ->
                 Section.type s <> tag) ->
      section_hits tag (ApiResponse.sections (ApiResponse.response data))
      = [])
  /\ ((forall s, In s (ApiResponse.sections (ApiResponse.response data)) ->
                 Section.type s <> "lyric") ->
      candidates data
      = section_hits "top_hit"
          (ApiResponse.sections (ApiResponse.response data))
        ++ section_hits "song"
             (ApiResponse.sections (ApiResponse.response data)))
  /\ ((forall s, In s (ApiResponse.sections (ApiResponse.response data)) ->
                 Section.type s <> "top_hit"
                 /\ Section.type s <> "song"
                 /\ Section.type s <> "lyric") ->
      songs_of data = [])
  /\ ((forall h, In h (songs_of data) ->
                 Song.primary_artists (Hit.result h) <> None) ->
      forall options : option OptionsParameters.t,
        console (geniusSearch axios_get encodeURIComponent search options)
        = [])
  /\ (songs_of data = [] ->
      forall options : option OptionsParameters.t,
        console (geniusSearch axios_get encodeURIComponent search options)
        = []
        /\ forall L : Z, L <> 0 ->
             geniusSearch axios_get encodeURIComponent search
               (Some (OptionsParameters.mk L))
             = {| promise := Fulfilled (Some []); console := [] |}).
Proof.
  intros Hfetch.
  assert (Hmissing : forall tag : string,
    (forall s, In s (ApiResponse.sections (ApiResponse.response data)) ->
               Section.type s <> tag) ->
    section_hits tag (ApiResponse.sections (ApiResponse.response data))
    = []).
  { intros tag Hno. rewrite section_hits_contribution.
    unfold contribution, first_section.
    replace (find _ _) with (@None Section.t); [reflexivity|].
    symmetry. apply find_none_iff. intros s Hs.
    apply String.eqb_neq. exact (Hno s Hs). }
  split; [exact Hmissing|]. split; [|split; [|split]].
  - intros Hno. unfold candidates. rewrite (Hmissing "lyric" Hno).
    rewrite app_nil_r. reflexivity.
  - intros Hno. unfold songs_of, candidates.
    rewrite !Hmissing; [reflexivity | | |]; intros s Hs; apply (Hno s Hs).
  - intros Hall options.
    rewrite (geniusSearch_fetched search options data Hfetch).
    destruct (projections_some _ Hall) as [rs ->]. reflexivity.
  - intros Hempty options.
    rewrite (geniusSearch_fetched search options data Hfetch).
    rewrite Hempty. simpl. split; [reflexivity|].
    intros L HL.
    rewrite (geniusSearch_fetched search _ data Hfetch).
    rewrite Hempty. simpl. unfold apply_limit, truthy. simpl.
    destruct (Z.eqb_spec L 0) as [->|_]; [contradiction|]. simpl.
    destruct (L >=? 0); [reflexivity|].
    destruct (slice_0_prefix (@nil SongResponse.t) L) as [k ->].
    rewrite firstn_nil. reflexivity.
Qed.

(** C8. A failure thrown by the fetch step is written to the console with
    the label of the [catch] clause and the promise is fulfilled with
    [undefined]; and no call, failed or not, ends in a rejected promise. *)
Theorem failure_isolation (search : string)
  (options : option OptionsParameters.t) (e : JsError.t) :
  fetch axios_get encodeURIComponent search = Throw e ->
  geniusSearch axios_get encodeURIComponent search options
  = {| promise := Fulfilled None; console := [("Error: ", e)] |}
  /\ forall (search' : string) (options' : option OptionsParameters.t),
       exists v,
         promise (geniusSearch axios_get encodeURIComponent search' options')
         = Fulfilled v.
Proof.
  intros Hfetch. split; [exact (geniusSearch_failed search options e Hfetch)|].
  intros search' options'. unfold geniusSearch.
  destruct (geniusSearch_try _ _ search' options') as [v|e'];
    eexists; reflexivity.
Qed.

(** C9, amended. When a retained song entry has no [primary_artists] at
    all, the loop over it throws a [TypeError]; the [catch] clause logs
    it and the whole call is fulfilled with [undefined], whatever the
    limit: no record is returned for any entry. *)
Theorem missing_primary_artists (search : string)
  (options : option OptionsParameters.t) (data : ApiResponse.t) :
  fetch axios_get encodeURIComponent search = Normal data ->
  (exists h, In h (songs_of data)
             /\ Song.primary_artists (Hit.result h) = None) ->
  geniusSearch axios_get encodeURIComponent search options
  = {| promise := Fulfilled None;
       console :=
         [("Error: ", JsError.mk "TypeError"
                        "song.result.primary_artists is not iterable")] |}.
Proof.
  intros Hfetch Hmissing.
  rewrite (geniusSearch_fetched search options data Hfetch).
  rewrite (projections_none _ Hmissing). reflexivity.
Qed.

(** C10. A limit of zero gives what no options at all give: the promise
    fulfilled with [undefined], and the same console. *)
Theorem limit_zero (search : string) :
  promise (geniusSearch axios_get encodeURIComponent search
             (Some (OptionsParameters.mk 0)))
  = Fulfilled None
  /\ geniusSearch axios_get encodeURIComponent search
       (Some (OptionsParameters.mk 0))
     = geniusSearch axios_get encodeURIComponent search None.
Proof.
  unfold geniusSearch, geniusSearch_try.
  destruct (fetch axios_get encodeURIComponent search) as [data|e]; simpl;
    [|split; reflexivity].
  destruct (for_of (songs_of data) push_song []); split; reflexivity.
Qed.

End Properties.

(** ** Concrete runs *)

Import Samples.

(** The end-to-end example: one top hit, limit 1. *)
Example bohemian_rhapsody :
  geniusSearch (ok single) encode "Bohemian Rhapsody"
    (Some (OptionsParameters.mk 1))
  = {| promise := Fulfilled (Some [bohemian_result]); console := [] |}.
Proof. reflexivity. Qed.

(** A negative limit is truthy and reaches [slice], which then counts from
    the end of the array. *)
Example negative_limit :
  option_map (map SongResponse.title)
    (apply_limit (Some (OptionsParameters.mk (-1)))
       [bohemian_result; drifted_defaulted; bohemian_result])
  = Some ["Bohemian Rhapsody"; "Radio Ga Ga"].
Proof. reflexivity. Qed.

Lemma section_priority_and_order_witness :
  fetch (ok mixed) encode "queen" = Normal mixed
  /\ candidates mixed
     = [queen_page; bohemian; pressure; opera_album; champions]
  /\ candidates mixed
     = candidates
         (payload [ Section.mk "song" [pressure; opera_album];
                    Section.mk "artist" [queen_page];
                    Section.mk "top_hit" [queen_page; bohemian];
                    Section.mk "lyric" [champions] ])
  /\ exists out,
       promise (geniusSearch (ok mixed) encode "queen"
                  (Some (OptionsParameters.mk 2)))
       = Fulfilled (Some out)
       /\ map projection [bohemian; pressure] = map Some out.
Proof.
  destruct (section_priority_and_order (ok mixed) encode "queen"
              (Some (OptionsParameters.mk 2)) mixed eq_refl)
    as [Hcand [Hdup Hout]].
  split; [reflexivity|]. split; [rewrite Hcand; reflexivity|]. split.
  - exact (Hdup [] [Section.mk "artist" [queen_page];
                    Section.mk "top_hit" [queen_page; bohemian]]
                [Section.mk "lyric" [champions]]
                (Section.mk "song" [pressure; opera_album])
                (Section.mk "song" [somebody]) eq_refl eq_refl).
  - eexists. split; [reflexivity|]. exact (Hout _ eq_refl).
Defined.

Lemma entity_filter_witness :
  fetch (ok mixed) encode "queen" = Normal mixed
  /\ exists out,
       promise (geniusSearch (ok mixed) encode "queen"
                  (Some (OptionsParameters.mk 10)))
       = Fulfilled (Some out)
       /\ map SongResponse.title out
          = ["Bohemian Rhapsody"; "Under Pressure"; "We Are the Champions"]
       /\ exists hs,
            map projection hs = map Some out
            /\ Forall (fun h => In h (candidates mixed)
                                /\ Hit.type h = "song") hs.
Proof.
  split; [reflexivity|]. eexists.
  split; [reflexivity|]. split; [reflexivity|].
  exact (proj1 (entity_filter (ok mixed) encode "queen"
                  (Some (OptionsParameters.mk 10)) mixed _
                  eq_refl eq_refl)).
Defined.

(** C3 as stated fails at a limit of zero: the normalized sequence holds
    one record, the claim asks for its first zero elements, and the call
    is fulfilled with [undefined]. *)
Lemma truncation_law_fails_at_zero :
  for_of (songs_of single) push_song [] = Normal [bohemian_result]
  /\ 0 <= 0
  /\ capped 0 [bohemian_result] = []
  /\ promise (geniusSearch (ok single) encode "Bohemian Rhapsody"
                (Some (OptionsParameters.mk 0)))
     = Fulfilled None
  /\ promise (geniusSearch (ok single) encode "Bohemian Rhapsody"
                (Some (OptionsParameters.mk 0)))
     <> Fulfilled (Some (capped 0 [bohemian_result])).
Proof.
  split; [reflexivity|]. split; [lia|]. split; [reflexivity|].
  split; [reflexivity | discriminate].
Qed.

Lemma truncation_law_witness :
  exists R,
    fetch (ok mixed) encode "queen" = Normal mixed
    /\ for_of (songs_of mixed) push_song [] = Normal R
    /\ 0 < 2
    /\ promise (geniusSearch (ok mixed) encode "queen"
                  (Some (OptionsParameters.mk 2)))
       = Fulfilled (Some (capped 2 R))
    /\ Z.of_nat (List.length (capped 2 R)) <= 2
    /\ map SongResponse.title (capped 2 R)
       = ["Bohemian Rhapsody"; "Under Pressure"].
Proof.
  eexists. split; [reflexivity|]. split; [reflexivity|].
  split; [lia|].
  destruct (truncation_law (ok mixed) encode "queen" mixed _ 2
              eq_refl eq_refl eq_refl) as [Hcall Hlen].
  split; [exact Hcall|]. split; [exact Hlen | reflexivity].
Defined.

Lemma artist_projection_witness :
  exists rs,
    for_of [pressure; champions] push_song [] = Normal rs
    /\ (exists r artists,
          nth_error rs 0 = Some r
          /\ Song.primary_artists (Hit.result pressure) = Some artists
          /\ List.length (SongResponse.artist r) = List.length artists
          /\ map ArtistInfo.name (SongResponse.artist r)
             = ["Queen"; "David Bowie"])
    /\ (exists r, nth_error rs 1 = Some r /\ SongResponse.artist r = []).
Proof.
  eexists. split; [reflexivity|]. split.
  - destruct (artist_projection [pressure; champions] _ eq_refl
                0%nat pressure eq_refl)
      as [r [artists [Hr [Ha [_ [Hlen _]]]]]].
    exists r, artists. split; [exact Hr|]. split; [exact Ha|].
    split; [exact Hlen|].
    injection Hr as <-. reflexivity.
  - destruct (artist_projection [pressure; champions] _ eq_refl
                1%nat champions eq_refl)
      as [r [artists [Hr [Ha [_ [_ [_ Hnil]]]]]]].
    exists r. split; [exact Hr|]. apply Hnil.
    injection Ha as <-. reflexivity.
Defined.

Lemma result_assembly_witness :
  exists rs,
    for_of [bohemian] push_song [] = Normal rs
    /\ List.length rs = 1%nat
    /\ exists r,
         nth_error rs 0 = Some r
         /\ SongResponse.title r = "Bohemian Rhapsody"
         /\ SongResponse.url_song r
            = "https://genius.com/sample/Bohemian Rhapsody"
         /\ SongResponse.url_lyric r
            = "https://genius.com/lyrics/Bohemian Rhapsody".
Proof.
  eexists. split; [reflexivity|].
  destruct (result_assembly [bohemian] _ eq_refl) as [Hlen Hnth].
  split; [exact Hlen|].
  destruct (Hnth 0%nat bohemian eq_refl)
    as [r [Hr [Ht [_ [Hs [Hl _]]]]]].
  exists r. split; [exact Hr|]. split; [exact Ht|].
  split; [exact Hs | exact Hl].
Defined.

Lemma graceful_degradation_witness :
  fetch (ok bare) encode "queen" = Normal bare
  /\ section_hits "lyric" (ApiResponse.sections (ApiResponse.response bare))
     = []
  /\ songs_of bare = []
  /\ geniusSearch (ok bare) encode "queen" (Some (OptionsParameters.mk 5))
     = {| promise := Fulfilled (Some []); console := [] |}.
Proof.
  destruct (graceful_degradation (ok bare) encode "queen" bare eq_refl)
    as [Hmissing [_ [Hnone [_ Hempty]]]].
  assert (Hbare : forall s,
    In s (ApiResponse.sections (ApiResponse.response bare)) ->
    Section.type s <> "top_hit" /\ Section.type s <> "song"
    /\ Section.type s <> "lyric").
  { intros s [<-|[]]. repeat split; discriminate. }
  split; [reflexivity|]. split.
  - apply Hmissing. intros s Hs. apply (Hbare s Hs).
  - split; [exact (Hnone Hbare)|].
    apply (Hempty (Hnone Hbare) None). discriminate.
Defined.

Lemma failure_isolation_witness :
  fetch refused encode "queen"
  = Throw (JsError.mk "AxiosError" "connect ECONNREFUSED 127.0.0.1:443")
  /\ geniusSearch refused encode "queen" (Some (OptionsParameters.mk 3))
     = {| promise := Fulfilled None;
          console :=
            [("Error: ",
              JsError.mk "AxiosError"
                "connect ECONNREFUSED 127.0.0.1:443")] |}.
Proof.
  split; [reflexivity|].
  exact (proj1 (failure_isolation refused encode "queen"
                  (Some (OptionsParameters.mk 3)) _ eq_refl)).
Defined.

(** C9 as stated fails: the second retained entry has no
    [primary_artists]; the claim asks for a record with an empty artist
    sequence for it, and the call gives no record at all. *)
Lemma missing_primary_artists_aborts :
  songs_of shape_drift = [bohemian; drifted]
  /\ Song.primary_artists (Hit.result drifted) = None
  /\ push_song drifted [bohemian_result]
     = Throw (JsError.mk "TypeError"
                "song.result.primary_artists is not iterable")
  /\ geniusSearch (ok shape_drift) encode "queen"
       (Some (OptionsParameters.mk 5))
     = {| promise := Fulfilled None;
          console :=
            [("Error: ",
              JsError.mk "TypeError"
                "song.result.primary_artists is not iterable")] |}
  /\ promise (geniusSearch (ok shape_drift) encode "queen"
                (Some (OptionsParameters.mk 5)))
     <> Fulfilled (Some [bohemian_result; drifted_defaulted]).
Proof.
  split; [reflexivity|]. split; [reflexivity|]. split; [reflexivity|].
  split; [reflexivity | discriminate].
Qed.

Lemma missing_primary_artists_witness :
  fetch (ok shape_drift) encode "queen" = Normal shape_drift
  /\ In drifted (songs_of shape_drift)
  /\ Song.primary_artists (Hit.result drifted) = None
  /\ geniusSearch (ok shape_drift) encode "queen" None
     = {| promise := Fulfilled None;
          console :=
            [("Error: ",
              JsError.mk "TypeError"
                "song.result.primary_artists is not iterable")] |}.
Proof.
  split; [reflexivity|]. split; [right; left; reflexivity|].
  split; [reflexivity|].
  apply (missing_primary_artists (ok shape_drift) encode "queen" None
           shape_drift eq_refl).
  exists drifted. split; [right; left; reflexivity | reflexivity].
Defined.

(** With a matching song in the payload, a limit gives the song and no
    options give [undefined], with nothing logged either way. *)
Example limit_absent_with_a_match :
  geniusSearch (ok single) encode "Bohemian Rhapsody" None
  = {| promise := Fulfilled None; console := [] |}.
Proof. reflexivity. Qed.

(** ** Further properties of the function *)

Lemma find_swap {A : Type} (p : A -> bool) (pre post : list A) (a b : A) :
  p a = false \/ p b = false ->
  find p (pre ++ a :: b :: post) = find p (pre ++ b :: a :: post).
Proof.
  intros H. induction pre as [|y pre IH]; simpl.
  - destruct H as [H|H]; rewrite H; destruct (p a), (p b);
      try reflexivity; discriminate.
  - destruct (p y); [reflexivity | exact IH].
Qed.

Lemma contribution_swap (tag : string) (pre post : list Section.t)
  (a b : Section.t) :
  Section.type a <> Section.type b ->
  contribution tag (pre ++ a :: b :: post)
  = contribution tag (pre ++ b :: a :: post).
Proof.
  intros Hab. unfold contribution, first_section.
  rewrite find_swap; [reflexivity|].
  destruct (String.eqb_spec (Section.type a) tag) as [Ha|Ha];
    [|left; reflexivity].
  right. apply String.eqb_neq. intros Hb. apply Hab.
  rewrite Ha, Hb. reflexivity.
Qed.

Lemma contribution_drop_other (tag : string) (pre post : list Section.t)
  (s : Section.t) :
  Section.type s <> tag ->
  contribution tag (pre ++ s :: post) = contribution tag (pre ++ post).
Proof.
  intros Hs. unfold contribution, first_section.
  rewrite find_drop_other; [reflexivity|].
  apply String.eqb_neq. exact Hs.
Qed.


Lemma apply_limit_positive (L : Z) (R : list SongResponse.t) :
  0 < L ->
  apply_limit (Some (OptionsParameters.mk L)) R
  = Some (firstn (Z.to_nat L) R).
Proof.
  intros HL. unfold apply_limit, truthy. simpl.
  destruct (Z.eqb_spec L 0) as [->|_]; [lia|]. simpl.
  rewrite Z.geb_leb.
  destruct (Z.leb_spec (Z.of_nat (List.length R)) L) as [H|H].
  - rewrite firstn_all2 by lia. reflexivity.
  - rewrite slice_0_nonneg by lia. reflexivity.
Qed.

Lemma apply_limit_negative (L : Z) (R : list SongResponse.t) :
  L < 0 ->
  apply_limit (Some (OptionsParameters.mk L)) R
  = Some (firstn (List.length R - Z.to_nat (- L)) R).
Proof.
  intros HL. unfold apply_limit, truthy. simpl.
  destruct (Z.eqb_spec L 0) as [->|_]; [lia|]. simpl.
  rewrite Z.geb_leb.
  destruct (Z.leb_spec (Z.of_nat (List.length R)) L) as [H|_]; [lia|].
  unfold slice.
  assert (H0 : (0 <? 0) = false) by reflexivity. rewrite H0.
  assert (Hlt : (L <? 0) = true) by (apply Z.ltb_lt; exact HL).
  rewrite Hlt. rewrite (Z.min_l 0) by lia. simpl skipn.
  do 2 f_equal. lia.
Qed.

Lemma songs_of_sections (d1 d2 : ApiResponse.t) :
  ApiResponse.sections (ApiResponse.response d1)
  = ApiResponse.sections (ApiResponse.response d2) ->
  songs_of d1 = songs_of d2.
Proof.
  intros H. unfold songs_of, candidates. rewrite H. reflexivity.
Qed.

(** X1. The function does not deduplicate: a hit of kind "song" that
    stands both in the first "top_hit" section and in the first "song"
    section is projected twice, and its record stands at two positions of
    the normalized sequence. *)
Theorem no_deduplication (data : ApiResponse.t)
  (R : list SongResponse.t) (h : Hit.t) :
  for_of (songs_of data) push_song [] = Normal R ->
  Hit.type h = "song" ->
  In h (section_hits "top_hit"
          (ApiResponse.sections (ApiResponse.response data))) ->
  In h (section_hits "song"
          (ApiResponse.sections (ApiResponse.response data))) ->
  exists (i j : nat) (r : SongResponse.t),
    (i < j)%nat
    /\ projection h = Some r
    /\ nth_error R i = Some r
    /\ nth_error R j = Some r.
Proof.
  intros Hrun Hty Htop Hsong.
  apply for_of_normal_projections in Hrun.
  set (sections := ApiResponse.sections (ApiResponse.response data)) in *.
  set (keep := fun hit : Hit.t => String.eqb (Hit.type hit) "song").
  assert (Hkeep : keep h = true) by (apply String.eqb_eq; exact Hty).
  assert (Hsplit : songs_of data
                   = filter keep (section_hits "top_hit" sections)
                     ++ filter keep (section_hits "song" sections)
                     ++ filter keep (section_hits "lyric" sections)).
  { unfold songs_of, candidates. fold sections.
    rewrite !filter_app. reflexivity. }
  assert (Hi : In h (filter keep (section_hits "top_hit" sections)))
    by (apply filter_In; split; assumption).
  assert (Hj : In h (filter keep (section_hits "song" sections)))
    by (apply filter_In; split; assumption).
  apply In_nth_error in Hi. destruct Hi as [i Hi].
  apply In_nth_error in Hj. destruct Hj as [j Hj].
  assert (Hilt : (i < List.length
                        (filter keep (section_hits "top_hit" sections)))%nat)
    by (apply nth_error_Some; rewrite Hi; discriminate).
  assert (Hjlt : (j < List.length
                        (filter keep (section_hits "song" sections)))%nat)
    by (apply nth_error_Some; rewrite Hj; discriminate).
  assert (Hi' : nth_error (songs_of data) i = Some h).
  { rewrite Hsplit. rewrite nth_error_app1 by exact Hilt. exact Hi. }
  assert (Hj' : nth_error (songs_of data)
                  (List.length
                     (filter keep (section_hits "top_hit" sections)) + j)
                = Some h).
  { rewrite Hsplit. rewrite nth_error_app2 by lia.
    replace (_ + j - _)%nat with j by lia.
    rewrite nth_error_app1 by exact Hjlt. exact Hj. }
  destruct (projections_nth _ _ _ _ Hrun Hi') as [r [Hr Hp]].
  destruct (projections_nth _ _ _ _ Hrun Hj') as [r' [Hr' Hp']].
  rewrite Hp in Hp'. injection Hp' as <-.
  exists i, (List.length
               (filter keep (section_hits "top_hit" sections)) + j)%nat, r.
  split; [lia|]. split; [exact Hp|]. split; [exact Hr | exact Hr'].
Qed.

(** X2. A section whose tag is none of "top_hit", "song" and "lyric" is
    never read: taking it out of the payload leaves the entries
    considered, and so the retained songs, as they were. *)
Theorem other_sections_ignored (data : ApiResponse.t)
  (pre post : list Section.t) (s : Section.t) :
  ApiResponse.sections (ApiResponse.response data) = pre ++ s :: post ->
  Section.type s <> "top_hit" ->
  Section.type s <> "song" ->
  Section.type s <> "lyric" ->
  candidates data = candidates (with_sections data (pre ++ post))
  /\ songs_of data = songs_of (with_sections data (pre ++ post)).
Proof.
  intros Hsections Ht Hs Hl.
  assert (H : candidates data
              = candidates (with_sections data (pre ++ post))).
  { rewrite !candidates_considered. simpl. rewrite Hsections.
    unfold considered.
    rewrite !contribution_drop_other by assumption. reflexivity. }
  split; [exact H|]. unfold songs_of. rewrite H. reflexivity.
Qed.

(** X3. The priority order is the function's own: exchanging two
    neighbouring sections of the payload that bear different tags changes
    neither the entries considered nor their order. *)
Theorem payload_order_irrelevant (data : ApiResponse.t)
  (pre post : list Section.t) (a b : Section.t) :
  ApiResponse.sections (ApiResponse.response data)
  = pre ++ a :: b :: post ->
  Section.type a <> Section.type b ->
  candidates data = candidates (with_sections data (pre ++ b :: a :: post)).
Proof.
  intros Hsections Hab.
  rewrite !candidates_considered. simpl. rewrite Hsections.
  unfold considered.
  rewrite !(contribution_swap _ pre post a b Hab). reflexivity.
Qed.

Section Requests.

Variable encodeURIComponent : string -> Completion string.

(** X4. One call reads the HTTP client at one URL only, the search
    endpoint followed by the encoded search string, and the options play
    no part in it: two clients that answer alike at that URL give the
    same run, whatever they answer elsewhere. *)
Theorem single_request
  (client1 client2 : string -> Completion AxiosResponse.t)
  (search q : string) (options : option OptionsParameters.t) :
  encodeURIComponent search = Normal q ->
  client1 (String.append "https://genius.com/api/search/multi?q=" q)
  = client2 (String.append "https://genius.com/api/search/multi?q=" q) ->
  geniusSearch client1 encodeURIComponent search options
  = geniusSearch client2 encodeURIComponent search options.
Proof.
  intros Hq Hsame. unfold geniusSearch, geniusSearch_try, fetch.
  rewrite Hq. cbn [bind]. rewrite Hsame. reflexivity.
Qed.

(** X5. Of a response only the sections are read: the status of the HTTP
    response and the [meta] of its body never change the run. *)
Theorem status_and_meta_ignored
  (client1 client2 : string -> Completion AxiosResponse.t)
  (search : string) (options : option OptionsParameters.t)
  (d1 d2 : ApiResponse.t) :
  fetch client1 encodeURIComponent search = Normal d1 ->
  fetch client2 encodeURIComponent search = Normal d2 ->
  ApiResponse.sections (ApiResponse.response d1)
  = ApiResponse.sections (ApiResponse.response d2) ->
  geniusSearch client1 encodeURIComponent search options
  = geniusSearch client2 encodeURIComponent search options.
Proof.
  intros H1 H2 Hsections.
  rewrite (geniusSearch_fetched client1 encodeURIComponent search options
             d1 H1).
  rewrite (geniusSearch_fetched client2 encodeURIComponent search options
             d2 H2).
  rewrite (songs_of_sections d1 d2 Hsections). reflexivity.
Qed.

Variable axios_get : string -> Completion AxiosResponse.t.

(** X6. A negative limit is truthy and below every length, so it reaches
    [slice(0, limit)], which counts from the end: the call returns the
    normalized sequence without its last [-limit] records (nothing when
    there are no more than that). *)
Theorem negative_limit_law (search : string) (data : ApiResponse.t)
  (R : list SongResponse.t) (L : Z) :
  fetch axios_get encodeURIComponent search = Normal data ->
  for_of (songs_of data) push_song [] = Normal R ->
  L < 0 ->
  promise (geniusSearch axios_get encodeURIComponent search
             (Some (OptionsParameters.mk L)))
  = Fulfilled (Some (firstn (List.length R - Z.to_nat (- L)) R)).
Proof.
  intros Hfetch Hloop HL.
  rewrite (geniusSearch_fetched axios_get encodeURIComponent search _ data
             Hfetch).
  rewrite (for_of_normal_projections _ _ Hloop). cbn [promise].
  rewrite (apply_limit_negative L R HL). reflexivity.
Qed.

(** X7. Limits compose: what a call returns under a positive limit is the
    beginning, of that length, of what the same call returns under any
    larger limit. *)
Theorem smaller_limit_is_prefix (search : string) (data : ApiResponse.t)
  (L1 L2 : Z) (out2 : list SongResponse.t) :
  fetch axios_get encodeURIComponent search = Normal data ->
  0 < L1 -> L1 <= L2 ->
  promise (geniusSearch axios_get encodeURIComponent search
             (Some (OptionsParameters.mk L2)))
  = Fulfilled (Some out2) ->
  promise (geniusSearch axios_get encodeURIComponent search
             (Some (OptionsParameters.mk L1)))
  = Fulfilled (Some (firstn (Z.to_nat L1) out2)).
Proof.
  intros Hfetch H1 H12 Hout2.
  rewrite (geniusSearch_fetched axios_get encodeURIComponent search _ data
             Hfetch) in Hout2.
  rewrite (geniusSearch_fetched axios_get encodeURIComponent search _ data
             Hfetch).
  destruct (projections (songs_of data)) as [rs|]; cbn [promise] in Hout2 |- *;
    [|discriminate].
  rewrite apply_limit_positive in Hout2 by lia.
  injection Hout2 as <-.
  rewrite apply_limit_positive by exact H1.
  rewrite firstn_firstn. do 3 f_equal. lia.
Qed.


End Requests.

Lemma negative_limit_law_witness :
  exists R,
    fetch (ok mixed) encode "queen" = Normal mixed
    /\ for_of (songs_of mixed) push_song [] = Normal R
    /\ -2 < 0
    /\ List.length R = 3%nat
    /\ exists out,
         promise (geniusSearch (ok mixed) encode "queen"
                    (Some (OptionsParameters.mk (-2))))
         = Fulfilled (Some out)
         /\ map SongResponse.title out = ["Bohemian Rhapsody"].
Proof.
  eexists. split; [reflexivity|]. split; [reflexivity|].
  split; [lia|]. split; [reflexivity|].
  eexists. split.
  - exact (negative_limit_law encode (ok mixed) "queen" mixed _ (-2)
             eq_refl eq_refl eq_refl).
  - reflexivity.
Defined.

Lemma no_deduplication_witness :
  exists R,
    for_of (songs_of doubled) push_song [] = Normal R
    /\ map SongResponse.title R
       = ["Bohemian Rhapsody"; "Under Pressure"; "Bohemian Rhapsody"]
    /\ exists i j r,
         (i < j)%nat
         /\ projection bohemian = Some r
         /\ nth_error R i = Some r
         /\ nth_error R j = Some r.
Proof.
  eexists. split; [reflexivity|]. split; [reflexivity|].
  apply (no_deduplication doubled _ bohemian eq_refl eq_refl).
  - left. reflexivity.
  - right. left. reflexivity.
Defined.

Lemma other_sections_ignored_witness :
  candidates mixed
  = candidates
      (payload [ Section.mk "song" [pressure; opera_album];
                 Section.mk "top_hit" [queen_page; bohemian];
                 Section.mk "song" [somebody];
                 Section.mk "lyric" [champions] ]).
Proof.
  apply (other_sections_ignored mixed
           [Section.mk "song" [pressure; opera_album]]
           [Section.mk "top_hit" [queen_page; bohemian];
            Section.mk "song" [somebody];
            Section.mk "lyric" [champions]]
           (Section.mk "artist" [queen_page]) eq_refl);
    discriminate.
Defined.

Lemma payload_order_irrelevant_witness :
  candidates doubled
  = candidates (payload [ Section.mk "song" [pressure; bohemian];
                          Section.mk "top_hit" [bohemian] ])
  /\ candidates doubled = [bohemian; pressure; bohemian].
Proof.
  split; [|reflexivity].
  apply (payload_order_irrelevant doubled [] []
           (Section.mk "top_hit" [bohemian])
           (Section.mk "song" [pressure; bohemian]) eq_refl).
  discriminate.
Defined.

Lemma single_request_witness :
  geniusSearch (ok single) encode "Bohemian Rhapsody"
    (Some (OptionsParameters.mk 1))
  = geniusSearch
      (fun url =>
         if String.eqb url
              "https://genius.com/api/search/multi?q=Bohemian Rhapsody"
         then ok single url else refused url)
      encode "Bohemian Rhapsody" (Some (OptionsParameters.mk 1)).
Proof.
  apply (single_request encode (ok single) _ "Bohemian Rhapsody"
           "Bohemian Rhapsody" (Some (OptionsParameters.mk 1)) eq_refl).
  reflexivity.
Defined.

Lemma smaller_limit_is_prefix_witness :
  exists out2,
    fetch (ok mixed) encode "queen" = Normal mixed
    /\ 0 < 1 /\ 1 <= 2
    /\ promise (geniusSearch (ok mixed) encode "queen"
                  (Some (OptionsParameters.mk 2)))
       = Fulfilled (Some out2)
    /\ map SongResponse.title out2
       = ["Bohemian Rhapsody"; "Under Pressure"]
    /\ promise (geniusSearch (ok mixed) encode "queen"
                  (Some (OptionsParameters.mk 1)))
       = Fulfilled (Some (firstn 1 out2)).
Proof.
  eexists. split; [reflexivity|]. split; [lia|]. split; [lia|].
  split; [reflexivity|]. split; [reflexivity|].
  apply (smaller_limit_is_prefix encode (ok mixed) "queen" mixed 1 2 _
           eq_refl).
  - lia.
  - lia.
  - reflexivity.
Defined.

Lemma status_and_meta_ignored_witness :
  geniusSearch (ok single) encode "Bohemian Rhapsody"
    (Some (OptionsParameters.mk 1))
  = geniusSearch
      (fun _ =>
         Normal
           (AxiosResponse.mk
              (ApiResponse.mk (Meta.mk 500)
                 (ApiResponse.mk_response
                    [Section.mk "top_hit" [bohemian]]))
              203))
      encode "Bohemian Rhapsody" (Some (OptionsParameters.mk 1)).
Proof.
  exact (status_and_meta_ignored encode (ok single)
           (fun _ =>
              Normal
                (AxiosResponse.mk
                   (ApiResponse.mk (Meta.mk 500)
                      (ApiResponse.mk_response
                         [Section.mk "top_hit" [bohemian]]))
                   203))
           "Bohemian Rhapsody" (Some (OptionsParameters.mk 1))
           single
           (ApiResponse.mk (Meta.mk 500)
              (ApiResponse.mk_response [Section.mk "top_hit" [bohemian]]))
           eq_refl eq_refl eq_refl).
Defined.

